(** * Request and response models of the query-and-chat server

    A shallow embedding of [backend/danswer/server/query_and_chat/models.py]:
    the pydantic models whose behaviour goes beyond a plain field list (the
    three root validators, the field defaults and the [dict] override of
    [ChatMessageDetail]), with the properties the specification states
    about them. *)

From Stdlib Require Import ZArith NArith String List Lia.
From stdpp Require Import gmap strings list fin_maps pretty.

Set Warnings "-register-all".
Local Open Scope string_scope.

(** ** Python values *)

(** [datetime.datetime]: the calendar fields, and the offset of its
    [tzinfo] from UTC in microseconds ([None] for a naive datetime). *)
Record datetime := Datetime {
  year : N;
  month : N;
  day : N;
  hour : N;
  minute : N;
  second : N;
  microsecond : N;
  utcoffset : option Z
}.

(** The values a model's field can hold. [VModel] is an instance of another
    pydantic model (class name and attributes), [VEnum] a member of an
    [Enum] class. *)
Inductive value : Type :=
  | VNone
  | VBool (b : bool)
  | VInt (n : Z)
  | VStr (s : string)
  | VDatetime (t : datetime)
  | VEnum (cls member : string)
  | VList (xs : list value)
  | VDict (items : list (value * value))
  | VModel (cls : string) (attrs : list (string * value)).

(** [v is None] *)
Definition is_None (v : value) : bool :=
  match v with
  | VNone => true
  | _ => false
  end.

(** [v is False] *)
Definition is_False (v : value) : bool :=
  match v with
  | VBool false => true
  | _ => false
  end.

(** [d.get(key)]: the entry, or [None] when the key is absent. *)
Definition dict_get (d : gmap string value) (key : string) : value :=
  default VNone (d !! key).

(** An optional field as a value: [None] is Python's [None]. *)
Definition of_option {A : Type} (f : A -> value) (o : option A) : value :=
  match o with
  | Some a => f a
  | None => VNone
  end.

(** An instance of a model class declared in another module
    ([RetrievalDetails], [LLMOverride], [FileDescriptor], ...). *)
Record instance := Instance {
  cls_name : string;
  attributes : list (string * value)
}.

Definition of_instance (o : instance) : value :=
  VModel (cls_name o) (attributes o).

Definition of_ints (l : list Z) : value := VList (VInt <$> l).

Definition of_instances (l : list instance) : value :=
  VList (of_instance <$> l).

(** ** Exceptions and results *)

Inductive result (E A : Type) : Type :=
  | Return (a : A)
  | Raise (e : E).
Arguments Return {E A} a.
Arguments Raise {E A} e.

Inductive exn : Type :=
  | ValueError (msg : string).

(** pydantic's [ErrorWrapper(exc, loc)] and [ValidationError(errors, model)]. *)
Record ErrorWrapper := mkErrorWrapper {
  exc : exn;
  loc : string
}.

Record ValidationError := mkValidationError {
  raw_errors : list ErrorWrapper;
  model : string
}.

Definition ROOT_KEY : string := "__root__".

(** ** Root validators

    A [@root_validator] receives the dictionary of validated field values
    and returns it, or raises. *)
Definition root_validator : Type :=
  gmap string value -> result exn (gmap string value).

(** The last phase of pydantic's [validate_model]: the post root validators
    run in order on the field values; a [ValueError] one raises is collected
    under [__root__], and the model is refused with a [ValidationError] when
    any error was collected. *)
Fixpoint run_root_validators (vs : list root_validator)
    (values : gmap string value) (errors : list ErrorWrapper)
    : gmap string value * list ErrorWrapper :=
  match vs with
  | [] => (values, errors)
  | v :: vs' =>
      match v values with
      | Return values' => run_root_validators vs' values' errors
      | Raise e =>
          run_root_validators vs' values
            (app errors [mkErrorWrapper e ROOT_KEY])
      end
  end.

Definition validate_model (cls : string) (vs : list root_validator)
    (values : gmap string value)
    : result ValidationError (gmap string value) :=
  match run_root_validators vs values [] with
  | (values', []) => Return values'
  | (_, errors) => Raise (mkValidationError errors cls)
  end.

(** A keyword argument of a model constructor: [None] when the caller did
    not pass it, in which case the field takes its declared default. *)
Definition kwarg (A : Type) : Type := option A.
Definition omitted {A : Type} : kwarg A := None.
Definition given {A : Type} (a : A) : kwarg A := Some a.

Definition field_value {A : Type} (dflt : A) (arg : kwarg A) : A :=
  default dflt arg.

(** ** ChatSessionCreationRequest *)

Module ChatSessionCreationRequest.
Record t := mk {
  persona_id : Z;
  description : option string
}.

(** [ChatSessionCreationRequest(persona_id=..., description=...)] *)
Definition new (persona_id : kwarg Z) (description : kwarg (option string)) : t :=
  {| persona_id := field_value 0%Z persona_id;
     description := field_value None description |}.
End ChatSessionCreationRequest.

(** ** ChatFeedbackRequest *)

Module ChatFeedbackRequest.
Record t := mk {
  chat_message_id : Z;
  is_positive : option bool;
  feedback_text : option string;
  predefined_feedback : option string
}.

(** The validated field values handed to the root validator. *)
Definition values (r : t) : gmap string value :=
  <["chat_message_id" := VInt (chat_message_id r)]>
  (<["is_positive" := of_option VBool (is_positive r)]>
  (<["feedback_text" := of_option VStr (feedback_text r)]>
  (<["predefined_feedback" := of_option VStr (predefined_feedback r)]> ∅))).

Definition check_is_positive_or_feedback_text : root_validator :=
  fun values =>
    let is_positive := dict_get values "is_positive" in
    let feedback_text := dict_get values "feedback_text" in
    if is_None is_positive && is_None feedback_text
    then Raise (ValueError "Empty feedback received.")
    else Return values.

Definition validate (r : t) : result ValidationError (gmap string value) :=
  validate_model "ChatFeedbackRequest"
    [check_is_positive_or_feedback_text] (values r).
End ChatFeedbackRequest.

(** ** ToolConfig *)

Module ToolConfig.
Record t := mk {
  name : string;
  description : string;
  in_code_tool_id : option Z;
  display_name : option string;
  openapi_schema : option (list (string * value))
}.

(** [ToolConfig(name=..., description=..., ...)]: [name] and
    [description] are required, the other three default to [None]. *)
Definition new (name description : string)
    (in_code_tool_id : kwarg (option Z))
    (display_name : kwarg (option string))
    (openapi_schema : kwarg (option (list (string * value)))) : t :=
  {| name := name;
     description := description;
     in_code_tool_id := field_value None in_code_tool_id;
     display_name := field_value None display_name;
     openapi_schema := field_value None openapi_schema |}.
End ToolConfig.

(** ** CreateChatMessageRequest *)

Module CreateChatMessageRequest.
(** [inherited] holds the validated values of the fields declared by the
    base class [ChunkContext], which lives in [danswer.search.models]. *)
Record t := mk {
  inherited : gmap string value;
  persona_config : option instance;
  chat_session_id : Z;
  parent_message_id : option Z;
  message : string;
  file_descriptors : list instance;
  prompt_id : option Z;
  search_doc_ids : option (list Z);
  retrieval_options : option instance;
  query_override : option string;
  llm_override : option instance;
  prompt_override : option instance;
  alternate_assistant_id : option Z;
  use_existing_user_message : bool
}.

(** The fields this class declares. *)
Definition own_values (r : t) : gmap string value :=
  <["persona_config" := of_option of_instance (persona_config r)]>
  (<["chat_session_id" := VInt (chat_session_id r)]>
  (<["parent_message_id" := of_option VInt (parent_message_id r)]>
  (<["message" := VStr (message r)]>
  (<["file_descriptors" := of_instances (file_descriptors r)]>
  (<["prompt_id" := of_option VInt (prompt_id r)]>
  (<["search_doc_ids" := of_option of_ints (search_doc_ids r)]>
  (<["retrieval_options" := of_option of_instance (retrieval_options r)]>
  (<["query_override" := of_option VStr (query_override r)]>
  (<["llm_override" := of_option of_instance (llm_override r)]>
  (<["prompt_override" := of_option of_instance (prompt_override r)]>
  (<["alternate_assistant_id" := of_option VInt (alternate_assistant_id r)]>
  (<["use_existing_user_message" := VBool (use_existing_user_message r)]>
   ∅)))))))))))).

(** All validated field values; a field declared here shadows an
    inherited one of the same name. *)
Definition values (r : t) : gmap string value :=
  own_values r ∪ inherited r.

Definition check_search_doc_ids_or_retrieval_options : root_validator :=
  fun values =>
    let search_doc_ids := dict_get values "search_doc_ids" in
    let retrieval_options := dict_get values "retrieval_options" in
    if is_None search_doc_ids && is_None retrieval_options
    then Raise (ValueError
      "Either search_doc_ids or retrieval_options must be provided, but not both or neither.")
    else Return values.

(** Construction from validated fields: the root validator declared here
    is the one that runs ([ChunkContext] is taken to contribute fields
    only). *)
Definition validate (r : t) : result ValidationError (gmap string value) :=
  validate_model "CreateChatMessageRequest"
    [check_search_doc_ids_or_retrieval_options] (values r).
End CreateChatMessageRequest.

(** ** SearchFeedbackRequest *)

Module SearchFeedbackRequest.
(** [search_feedback] is a member of the enum [SearchFeedbackType]
    (declared in [danswer.configs.constants]), kept by its name. *)
Record t := mk {
  message_id : Z;
  document_id : string;
  document_rank : Z;
  click : bool;
  search_feedback : option string
}.

Definition values (r : t) : gmap string value :=
  <["message_id" := VInt (message_id r)]>
  (<["document_id" := VStr (document_id r)]>
  (<["document_rank" := VInt (document_rank r)]>
  (<["click" := VBool (click r)]>
  (<["search_feedback" :=
       of_option (VEnum "SearchFeedbackType") (search_feedback r)]> ∅)))).

Definition check_click_or_search_feedback : root_validator :=
  fun values =>
    let click := dict_get values "click" in
    let feedback := dict_get values "search_feedback" in
    if is_False click && is_None feedback
    then Raise (ValueError "Empty feedback received.")
    else Return values.

Definition validate (r : t) : result ValidationError (gmap string value) :=
  validate_model "SearchFeedbackRequest"
    [check_click_or_search_feedback] (values r).
End SearchFeedbackRequest.

(** ** ChatMessageDetail *)

(** [datetime.isoformat()] with its default separator and time
    specification: [YYYY-MM-DDTHH:MM:SS], then [.ffffff] when the
    microsecond is not zero, then the UTC offset of an aware datetime. *)
Module Isoformat.
(** ["%0<width>d" % n] for a natural number. *)
Definition zero_pad (width : nat) (n : N) : string :=
  let digits := pretty n in
  String.concat "" (replicate (width - String.length digits) "0") ++ digits.

Definition format_time (hh mm ss us : N) : string :=
  zero_pad 2 hh ++ ":" ++ zero_pad 2 mm ++ ":" ++ zero_pad 2 ss
  ++ (if (us =? 0)%N then "" else "." ++ zero_pad 6 us).

Definition format_offset (off : option Z) : string :=
  match off with
  | None => ""
  | Some us =>
      let sign := if (us <? 0)%Z then "-" else "+" in
      let a := Z.to_N (Z.abs us) in
      let hh := (a / 3600000000)%N in
      let rest := (a mod 3600000000)%N in
      let mm := (rest / 60000000)%N in
      let ss := (rest mod 60000000)%N in
      sign ++ zero_pad 2 hh ++ ":" ++ zero_pad 2 mm
      ++ (if (ss =? 0)%N then ""
          else ":" ++ zero_pad 2 (ss / 1000000)%N
               ++ (if (ss mod 1000000 =? 0)%N then ""
                   else "." ++ zero_pad 6 (ss mod 1000000)%N))
  end.

Definition isoformat (t : datetime) : string :=
  zero_pad 4 (year t) ++ "-" ++ zero_pad 2 (month t) ++ "-"
  ++ zero_pad 2 (day t) ++ "T"
  ++ format_time (hour t) (minute t) (second t) (microsecond t)
  ++ format_offset (utcoffset t).
End Isoformat.

(** The keyword arguments of pydantic's [BaseModel.dict] that select the
    exported fields. *)
Record dict_kwargs := DictKwargs {
  include : option (gset string);
  exclude : option (gset string);
  exclude_none : bool
}.

(** [dict()] called with no argument. *)
Definition no_kwargs : dict_kwargs :=
  {| include := None; exclude := None; exclude_none := false |}.

(** Exporting a value: an instance of a nested model becomes the
    dictionary of its attributes, recursively through lists and
    dictionaries; every other value is exported as it is. *)
Fixpoint to_dict (v : value) : value :=
  match v with
  | VModel _ attrs =>
      VDict (map (fun kv => (VStr (fst kv), to_dict (snd kv))) attrs)
  | VList xs => VList (map to_dict xs)
  | VDict items => VDict (map (fun kv => (fst kv, to_dict (snd kv))) items)
  | _ => v
  end.

(** pydantic's [BaseModel.dict] on the attribute dictionary of an instance:
    a field is exported when [include] (if given) lists it, [exclude] (if
    given) does not, and it is not a [None] dropped by [exclude_none]. *)
Module BaseModel.
Definition exported (kwargs : dict_kwargs) (key : string) (v : value) : bool :=
  match include kwargs with
  | Some keys => bool_decide (key ∈ keys)
  | None => true
  end
  && match exclude kwargs with
     | Some keys => negb (bool_decide (key ∈ keys))
     | None => true
     end
  && negb (exclude_none kwargs && is_None v).

Definition dict (kwargs : dict_kwargs) (attrs : gmap string value)
    : gmap string value :=
  to_dict <$>
    filter (fun kv => exported kwargs (fst kv) (snd kv) = true) attrs.
End BaseModel.

Module ChatMessageDetail.
(** [message_type] is a member of the enum [MessageType], kept by its
    name; [context_docs], [files] and [tool_calls] hold instances of
    classes declared in other modules. *)
Record t := mk {
  message_id : Z;
  parent_message : option Z;
  latest_child_message : option Z;
  message : string;
  rephrased_query : option string;
  context_docs : option instance;
  message_type : string;
  time_sent : datetime;
  alternate_assistant_id : option string;
  citations : option (gmap Z Z);
  files : list instance;
  tool_calls : list instance
}.

(** The attribute dictionary of an instance. *)
Definition fields (self : t) : gmap string value :=
  <["message_id" := VInt (message_id self)]>
  (<["parent_message" := of_option VInt (parent_message self)]>
  (<["latest_child_message" := of_option VInt (latest_child_message self)]>
  (<["message" := VStr (message self)]>
  (<["rephrased_query" := of_option VStr (rephrased_query self)]>
  (<["context_docs" := of_option of_instance (context_docs self)]>
  (<["message_type" := VEnum "MessageType" (message_type self)]>
  (<["time_sent" := VDatetime (time_sent self)]>
  (<["alternate_assistant_id" :=
       of_option VStr (alternate_assistant_id self)]>
  (<["citations" :=
       of_option
         (fun m => VDict (map (fun kv => (VInt (fst kv), VInt (snd kv)))
                            (map_to_list m)))
         (citations self)]>
  (<["files" := of_instances (files self)]>
  (<["tool_calls" := of_instances (tool_calls self)]> ∅))))))))))).

(** [BaseModel.dict] on a [ChatMessageDetail]. *)
Definition base_dict (kwargs : dict_kwargs) (self : t) : gmap string value :=
  BaseModel.dict kwargs (fields self).

Section dict.
(** [super().dict]: the serialization of the base class, pydantic's
    [BaseModel]. *)
Variable super_dict : dict_kwargs -> t -> gmap string value.

(** [ChatMessageDetail.dict(self, *args, **kwargs)]; [BaseModel.dict]
    takes keyword arguments only, so those are what is forwarded. *)
Definition dict (kwargs : dict_kwargs) (self : t) : gmap string value :=
  let initial_dict := super_dict kwargs self in
  let initial_dict :=
    <["time_sent" := VStr (Isoformat.isoformat (time_sent self))]>
      initial_dict in
  initial_dict.
End dict.
End ChatMessageDetail.

(** The errors the three constructors can raise. *)

Definition empty_feedback (cls : string) : ValidationError :=
  mkValidationError
    [mkErrorWrapper (ValueError "Empty feedback received.") ROOT_KEY] cls.

Definition neither_provided : ValidationError :=
  mkValidationError
    [mkErrorWrapper
       (ValueError
          "Either search_doc_ids or retrieval_options must be provided, but not both or neither.")
       ROOT_KEY]
    "CreateChatMessageRequest".

(** A message-creation request that sets both [search_doc_ids] and
    [retrieval_options]; [inherited] are the chunk-context fields. *)
Definition both_set_request (inherited : gmap string value)
    : CreateChatMessageRequest.t :=
  {| CreateChatMessageRequest.inherited := inherited;
     CreateChatMessageRequest.persona_config := None;
     CreateChatMessageRequest.chat_session_id := 1;
     CreateChatMessageRequest.parent_message_id := None;
     CreateChatMessageRequest.message := "What is Danswer?";
     CreateChatMessageRequest.file_descriptors := [];
     CreateChatMessageRequest.prompt_id := None;
     CreateChatMessageRequest.search_doc_ids := Some [3; 4]%Z;
     CreateChatMessageRequest.retrieval_options :=
       Some (Instance "RetrievalDetails" []);
     CreateChatMessageRequest.query_override := None;
     CreateChatMessageRequest.llm_override := None;
     CreateChatMessageRequest.prompt_override := None;
     CreateChatMessageRequest.alternate_assistant_id := None;
     CreateChatMessageRequest.use_existing_user_message := false |}.

(** A thumbs-up on message 5, with no text. *)
Definition sample_feedback : ChatFeedbackRequest.t :=
  {| ChatFeedbackRequest.chat_message_id := 5;
     ChatFeedbackRequest.is_positive := Some true;
     ChatFeedbackRequest.feedback_text := None;
     ChatFeedbackRequest.predefined_feedback := None |}.

(** [dict(exclude={"time_sent"})] *)
Definition exclude_time_sent : dict_kwargs :=
  {| include := None; exclude := Some {["time_sent"]}; exclude_none := false |}.

(** A message used in the examples below. *)
Definition sample_detail : ChatMessageDetail.t :=
  {| ChatMessageDetail.message_id := 7;
     ChatMessageDetail.parent_message := Some 6%Z;
     ChatMessageDetail.latest_child_message := None;
     ChatMessageDetail.message := "Hello";
     ChatMessageDetail.rephrased_query := None;
     ChatMessageDetail.context_docs := None;
     ChatMessageDetail.message_type := "USER";
     ChatMessageDetail.time_sent := Datetime 2024 3 9 7 5 0 0 None;
     ChatMessageDetail.alternate_assistant_id := None;
     ChatMessageDetail.citations := None;
     ChatMessageDetail.files := [];
     ChatMessageDetail.tool_calls := [] |}.

(** ** ChatSessionDetailResponse *)

(** A Python dictionary with string keys, as a value. *)
Definition of_dict (d : gmap string value) : value :=
  VDict (map (fun kv => (VStr (fst kv), snd kv)) (map_to_list d)).



(** What [BaseModel.dict] passes on to the [dict] of a nested model when
    [include] and [exclude] are sets of field names: the selection ends at
    the top level, [exclude_none] goes through. *)
Definition nested_kwargs (kwargs : dict_kwargs) : dict_kwargs :=
  {| include := None; exclude := None; exclude_none := exclude_none kwargs |}.

Module ChatSessionDetailResponse.
(** [shared_status] is a member of the enum [ChatSessionSharedStatus], kept
    by its name. *)
Record t := mk {
  chat_session_id : Z;
  description : string;
  persona_id : Z;
  persona_name : string;
  messages : list ChatMessageDetail.t;
  time_created : datetime;
  shared_status : string;
  current_alternate_model : option string
}.

(** The fields as [BaseModel.dict] exports them: each message through its
    own [dict], the override of [ChatMessageDetail]; the other fields as
    they are. *)
Definition exported_fields (kwargs : dict_kwargs) (self : t)
    : gmap string value :=
  <["chat_session_id" := VInt (chat_session_id self)]>
  (<["description" := VStr (description self)]>
  (<["persona_id" := VInt (persona_id self)]>
  (<["persona_name" := VStr (persona_name self)]>
  (<["messages" :=
       VList (map (fun m =>
                     of_dict (ChatMessageDetail.dict ChatMessageDetail.base_dict
                                (nested_kwargs kwargs) m))
                (messages self))]>
  (<["time_created" := VDatetime (time_created self)]>
  (<["shared_status" := VEnum "ChatSessionSharedStatus" (shared_status self)]>
  (<["current_alternate_model" :=
       of_option VStr (current_alternate_model self)]> ∅))))))).

(** [ChatSessionDetailResponse.dict], inherited from [BaseModel], with
    its keyword arguments. *)
Definition dict (kwargs : dict_kwargs) (self : t) : gmap string value :=
  filter (fun kv => BaseModel.exported kwargs (fst kv) (snd kv) = true)
    (exported_fields kwargs self).
End ChatSessionDetailResponse.

(** ** Constructing the requests from keyword arguments *)

(** A field annotated [T | None] may be left out of the call, with or
    without a declared default: it is then [None]. *)
Definition optional_field {A : Type} (arg : kwarg (option A)) : option A :=
  field_value None arg.

(** [ChatFeedbackRequest(chat_message_id=..., ...)]: the fields that are
    left out take their defaults, then the root validator runs. The result
    is the attribute dictionary of the new instance. *)
Definition ChatFeedbackRequest_new (chat_message_id : Z)
    (is_positive : kwarg (option bool))
    (feedback_text predefined_feedback : kwarg (option string))
    : result ValidationError (gmap string value) :=
  ChatFeedbackRequest.validate
    {| ChatFeedbackRequest.chat_message_id := chat_message_id;
       ChatFeedbackRequest.is_positive := optional_field is_positive;
       ChatFeedbackRequest.feedback_text := optional_field feedback_text;
       ChatFeedbackRequest.predefined_feedback :=
         optional_field predefined_feedback |}.

(** [SearchFeedbackRequest(message_id=..., ..., click=..., ...)] *)
Definition SearchFeedbackRequest_new (message_id : Z) (document_id : string)
    (document_rank : Z) (click : bool) (search_feedback : kwarg (option string))
    : result ValidationError (gmap string value) :=
  SearchFeedbackRequest.validate
    {| SearchFeedbackRequest.message_id := message_id;
       SearchFeedbackRequest.document_id := document_id;
       SearchFeedbackRequest.document_rank := document_rank;
       SearchFeedbackRequest.click := click;
       SearchFeedbackRequest.search_feedback :=
         optional_field search_feedback |}.

(** [CreateChatMessageRequest(chat_session_id=..., message=...,
    file_descriptors=..., ...)]; [inherited] are the validated
    chunk-context fields. *)
Definition CreateChatMessageRequest_new (inherited : gmap string value)
    (persona_config : kwarg (option instance)) (chat_session_id : Z)
    (parent_message_id : kwarg (option Z)) (message : string)
    (file_descriptors : list instance) (prompt_id : kwarg (option Z))
    (search_doc_ids : kwarg (option (list Z)))
    (retrieval_options : kwarg (option instance))
    (query_override : kwarg (option string))
    (llm_override prompt_override : kwarg (option instance))
    (alternate_assistant_id : kwarg (option Z))
    (use_existing_user_message : kwarg bool)
    : result ValidationError (gmap string value) :=
  CreateChatMessageRequest.validate
    {| CreateChatMessageRequest.inherited := inherited;
       CreateChatMessageRequest.persona_config := optional_field persona_config;
       CreateChatMessageRequest.chat_session_id := chat_session_id;
       CreateChatMessageRequest.parent_message_id :=
         optional_field parent_message_id;
       CreateChatMessageRequest.message := message;
       CreateChatMessageRequest.file_descriptors := file_descriptors;
       CreateChatMessageRequest.prompt_id := optional_field prompt_id;
       CreateChatMessageRequest.search_doc_ids := optional_field search_doc_ids;
       CreateChatMessageRequest.retrieval_options :=
         optional_field retrieval_options;
       CreateChatMessageRequest.query_override := optional_field query_override;
       CreateChatMessageRequest.llm_override := optional_field llm_override;
       CreateChatMessageRequest.prompt_override :=
         optional_field prompt_override;
       CreateChatMessageRequest.alternate_assistant_id :=
         optional_field alternate_assistant_id;
       CreateChatMessageRequest.use_existing_user_message :=
         field_value false use_existing_user_message |}.

(** ** Reading the validators on any dictionary *)

(** The entry [key] is missing from the dictionary or holds [None]: the two
    cases [d.get(key) is None] does not tell apart. *)
Definition null_or_missing (d : gmap string value) (key : string) : Prop :=
  d !! key = None \/ d !! key = Some VNone.

(** Whether a root validator lets a dictionary through. *)
Definition accepts (v : root_validator) (values : gmap string value) : bool :=
  match v values with
  | Return _ => true
  | Raise _ => false
  end.

(** Closes one direction of an equivalence between an outcome and a
    condition on optional fields, once the fields are known. *)
Ltac settle_case :=
  intros;
  first
    [ discriminate
    | reflexivity
    | contradiction
    | left; first [ reflexivity | discriminate ]
    | right; first [ reflexivity | discriminate ]
    | match goal with
      | H : _ /\ _ |- _ => destruct H; discriminate
      | H : _ \/ _ |- _ => destruct H; first [ discriminate | contradiction ]
      end
    | split; first [ reflexivity | discriminate ] ].

Example isoformat_naive :
  Isoformat.isoformat (Datetime 2024 3 9 7 5 0 0 None) = "2024-03-09T07:05:00".
Proof. vm_compute. exact eq_refl. Qed.

Example isoformat_aware :
  Isoformat.isoformat (Datetime 987 12 31 23 59 59 1500 (Some (-19800000000)%Z)) = "0987-12-31T23:59:59.001500-05:30".
Proof. vm_compute. exact eq_refl. Qed.

Example base_dict_sample_time_sent :
  ChatMessageDetail.base_dict no_kwargs sample_detail !! "time_sent"
  = Some (VDatetime (Datetime 2024 3 9 7 5 0 0 None)).
Proof. vm_compute. exact eq_refl. Qed.

Example base_dict_sample_excluded :
  let kwargs :=
    {| include := None; exclude := Some {["time_sent"]};
       exclude_none := true |} in
  ChatMessageDetail.base_dict kwargs sample_detail !! "time_sent" = None
  /\ ChatMessageDetail.base_dict kwargs sample_detail !! "citations" = None
  /\ ChatMessageDetail.base_dict kwargs sample_detail !! "message"
     = Some (VStr "Hello").
Proof. vm_compute. repeat split. Qed.

(** ** The validation pipeline *)

Lemma validate_model_single (cls : string) (v : root_validator)
    (values : gmap string value) :
  validate_model cls [v] values
  = match v values with
    | Return values' => Return values'
    | Raise e => Raise (mkValidationError [mkErrorWrapper e ROOT_KEY] cls)
    end.
Proof.
  unfold validate_model; simpl.
  destruct (v values); reflexivity.
Qed.

Lemma is_None_spec (v : value) : is_None v = true <-> v = VNone.
Proof. destruct v; simpl; split; congruence. Qed.

Lemma is_False_spec (v : value) : is_False v = true <-> v = VBool false.
Proof. destruct v as [|[]| | | | | | |]; simpl; split; congruence. Qed.

(** When each validator raises, on any dictionary of field values. *)

Lemma check_is_positive_or_feedback_text_raises (values : gmap string value) :
  ChatFeedbackRequest.check_is_positive_or_feedback_text values
    = Raise (ValueError "Empty feedback received.")
  <-> dict_get values "is_positive" = VNone
      /\ dict_get values "feedback_text" = VNone.
Proof.
  unfold ChatFeedbackRequest.check_is_positive_or_feedback_text. cbv zeta.
  rewrite <- !is_None_spec.
  destruct (is_None (dict_get values "is_positive")),
    (is_None (dict_get values "feedback_text")); simpl;
    split; settle_case.
Qed.

Lemma check_search_doc_ids_or_retrieval_options_raises
    (values : gmap string value) :
  (exists msg,
     CreateChatMessageRequest.check_search_doc_ids_or_retrieval_options values
     = Raise (ValueError msg))
  <-> dict_get values "search_doc_ids" = VNone
      /\ dict_get values "retrieval_options" = VNone.
Proof.
  unfold CreateChatMessageRequest.check_search_doc_ids_or_retrieval_options.
  cbv zeta. rewrite <- !is_None_spec.
  destruct (is_None (dict_get values "search_doc_ids")),
    (is_None (dict_get values "retrieval_options")); simpl; split;
    try (intros [msg Hmsg]; discriminate);
    try (intros [? ?]; discriminate).
  - intros _. split; reflexivity.
  - intros _. eexists. reflexivity.
Qed.

Lemma check_click_or_search_feedback_raises (values : gmap string value) :
  SearchFeedbackRequest.check_click_or_search_feedback values
    = Raise (ValueError "Empty feedback received.")
  <-> dict_get values "click" = VBool false
      /\ dict_get values "search_feedback" = VNone.
Proof.
  unfold SearchFeedbackRequest.check_click_or_search_feedback. cbv zeta.
  rewrite <- is_None_spec, <- is_False_spec.
  destruct (is_False (dict_get values "click")),
    (is_None (dict_get values "search_feedback")); simpl;
    split; settle_case.
Qed.

(** What each validator reads from the values of a typed request. *)

Lemma ChatFeedbackRequest_get_is_positive (r : ChatFeedbackRequest.t) :
  dict_get (ChatFeedbackRequest.values r) "is_positive"
  = of_option VBool (ChatFeedbackRequest.is_positive r).
Proof. reflexivity. Qed.

Lemma ChatFeedbackRequest_get_feedback_text (r : ChatFeedbackRequest.t) :
  dict_get (ChatFeedbackRequest.values r) "feedback_text"
  = of_option VStr (ChatFeedbackRequest.feedback_text r).
Proof. reflexivity. Qed.

Lemma CreateChatMessageRequest_get_search_doc_ids
    (r : CreateChatMessageRequest.t) :
  dict_get (CreateChatMessageRequest.values r) "search_doc_ids"
  = of_option of_ints (CreateChatMessageRequest.search_doc_ids r).
Proof.
  unfold dict_get, CreateChatMessageRequest.values.
  erewrite lookup_union_Some_l; [reflexivity | reflexivity].
Qed.

Lemma CreateChatMessageRequest_get_retrieval_options
    (r : CreateChatMessageRequest.t) :
  dict_get (CreateChatMessageRequest.values r) "retrieval_options"
  = of_option of_instance (CreateChatMessageRequest.retrieval_options r).
Proof.
  unfold dict_get, CreateChatMessageRequest.values.
  erewrite lookup_union_Some_l; [reflexivity | reflexivity].
Qed.

Lemma SearchFeedbackRequest_get_click (r : SearchFeedbackRequest.t) :
  dict_get (SearchFeedbackRequest.values r) "click"
  = VBool (SearchFeedbackRequest.click r).
Proof. reflexivity. Qed.

Lemma SearchFeedbackRequest_get_search_feedback (r : SearchFeedbackRequest.t) :
  dict_get (SearchFeedbackRequest.values r) "search_feedback"
  = of_option (VEnum "SearchFeedbackType")
      (SearchFeedbackRequest.search_feedback r).
Proof. reflexivity. Qed.

(** The outcome of constructing each request, by cases on the fields its
    validator reads. *)

Lemma ChatFeedbackRequest_validate_cases (r : ChatFeedbackRequest.t) :
  ChatFeedbackRequest.validate r
  = match ChatFeedbackRequest.is_positive r,
          ChatFeedbackRequest.feedback_text r with
    | None, None => Raise (empty_feedback "ChatFeedbackRequest")
    | _, _ => Return (ChatFeedbackRequest.values r)
    end.
Proof.
  unfold ChatFeedbackRequest.validate.
  rewrite validate_model_single.
  unfold ChatFeedbackRequest.check_is_positive_or_feedback_text.
  cbv zeta.
  rewrite ChatFeedbackRequest_get_is_positive,
    ChatFeedbackRequest_get_feedback_text.
  destruct (ChatFeedbackRequest.is_positive r),
    (ChatFeedbackRequest.feedback_text r); reflexivity.
Qed.

Lemma CreateChatMessageRequest_validate_cases
    (r : CreateChatMessageRequest.t) :
  CreateChatMessageRequest.validate r
  = match CreateChatMessageRequest.search_doc_ids r,
          CreateChatMessageRequest.retrieval_options r with
    | None, None => Raise neither_provided
    | _, _ => Return (CreateChatMessageRequest.values r)
    end.
Proof.
  unfold CreateChatMessageRequest.validate.
  rewrite validate_model_single.
  unfold CreateChatMessageRequest.check_search_doc_ids_or_retrieval_options.
  cbv zeta.
  rewrite CreateChatMessageRequest_get_search_doc_ids,
    CreateChatMessageRequest_get_retrieval_options.
  destruct (CreateChatMessageRequest.search_doc_ids r),
    (CreateChatMessageRequest.retrieval_options r); reflexivity.
Qed.

Lemma SearchFeedbackRequest_validate_cases (r : SearchFeedbackRequest.t) :
  SearchFeedbackRequest.validate r
  = match SearchFeedbackRequest.click r,
          SearchFeedbackRequest.search_feedback r with
    | false, None => Raise (empty_feedback "SearchFeedbackRequest")
    | _, _ => Return (SearchFeedbackRequest.values r)
    end.
Proof.
  unfold SearchFeedbackRequest.validate.
  rewrite validate_model_single.
  unfold SearchFeedbackRequest.check_click_or_search_feedback.
  cbv zeta.
  rewrite SearchFeedbackRequest_get_click,
    SearchFeedbackRequest_get_search_feedback.
  destruct (SearchFeedbackRequest.click r),
    (SearchFeedbackRequest.search_feedback r); reflexivity.
Qed.

(** ** Message creation: search documents or retrieval options *)

(** C1 (evaluation at the input where the code departs from the rule): a
    request that sets both [search_doc_ids] and [retrieval_options] is
    accepted by the validator, whatever the inherited chunk-context fields
    hold, although the rule and the validator's own message ask for exactly
    one of the two. *)
Theorem both_set_request_is_accepted (inherited : gmap string value) :
  CreateChatMessageRequest.search_doc_ids (both_set_request inherited)
    = Some [3; 4]%Z
  /\ CreateChatMessageRequest.retrieval_options (both_set_request inherited)
    = Some (Instance "RetrievalDetails" [])
  /\ CreateChatMessageRequest.validate (both_set_request inherited)
    = Return (CreateChatMessageRequest.values (both_set_request inherited)).
Proof.
  repeat split.
  rewrite CreateChatMessageRequest_validate_cases. reflexivity.
Qed.

(** C2: the rule on [search_doc_ids] and [retrieval_options] is enforced in
    the absence direction only. A request is rejected, with the
    [ValidationError] carrying the validator's message, exactly when both
    are null; it is accepted exactly when at least one is non-null; and a
    request with both non-null passes, whatever the two and the other
    fields hold. *)
Theorem create_chat_message_checks_absence_only :
  (forall r : CreateChatMessageRequest.t,
     CreateChatMessageRequest.validate r = Raise neither_provided
     <-> CreateChatMessageRequest.search_doc_ids r = None
         /\ CreateChatMessageRequest.retrieval_options r = None)
  /\ (forall r : CreateChatMessageRequest.t,
        CreateChatMessageRequest.validate r
          = Return (CreateChatMessageRequest.values r)
        <-> CreateChatMessageRequest.search_doc_ids r <> None
            \/ CreateChatMessageRequest.retrieval_options r <> None)
  /\ (forall inherited persona session parent msg files prompt ids options
             query llm prompt_override assistant existing,
        let r := CreateChatMessageRequest.mk inherited persona session
                   parent msg files prompt (Some ids) (Some options) query
                   llm prompt_override assistant existing in
        CreateChatMessageRequest.validate r
        = Return (CreateChatMessageRequest.values r)).
Proof.
  split; [| split].
  - intros r. rewrite CreateChatMessageRequest_validate_cases.
    destruct (CreateChatMessageRequest.search_doc_ids r),
      (CreateChatMessageRequest.retrieval_options r); split; settle_case.
  - intros r. rewrite CreateChatMessageRequest_validate_cases.
    destruct (CreateChatMessageRequest.search_doc_ids r),
      (CreateChatMessageRequest.retrieval_options r); split; settle_case.
  - intros. apply CreateChatMessageRequest_validate_cases.
Qed.

(** ** Feedback requests *)

(** C3: a chat feedback request is rejected, with a [ValidationError], if
    and only if both [is_positive] and [feedback_text] are null; with at
    least one of them non-null it is accepted. *)
Theorem chat_feedback_rejected_iff_both_null (r : ChatFeedbackRequest.t) :
  (ChatFeedbackRequest.validate r
     = Raise (empty_feedback "ChatFeedbackRequest")
   <-> ChatFeedbackRequest.is_positive r = None
       /\ ChatFeedbackRequest.feedback_text r = None)
  /\ (ChatFeedbackRequest.validate r = Return (ChatFeedbackRequest.values r)
      <-> ChatFeedbackRequest.is_positive r <> None
          \/ ChatFeedbackRequest.feedback_text r <> None).
Proof.
  rewrite ChatFeedbackRequest_validate_cases.
  destruct (ChatFeedbackRequest.is_positive r) as [b|],
    (ChatFeedbackRequest.feedback_text r) as [s|];
    (split; split); settle_case.
Qed.

(** C4: a search feedback request is accepted if and only if [click] is
    true or [search_feedback] is non-null; with [click] false and
    [search_feedback] null it is rejected with a [ValidationError]. *)
Theorem search_feedback_accepted_iff_click_or_feedback
    (r : SearchFeedbackRequest.t) :
  (SearchFeedbackRequest.validate r
     = Return (SearchFeedbackRequest.values r)
   <-> SearchFeedbackRequest.click r = true
       \/ SearchFeedbackRequest.search_feedback r <> None)
  /\ (SearchFeedbackRequest.validate r
        = Raise (empty_feedback "SearchFeedbackRequest")
      <-> SearchFeedbackRequest.click r = false
          /\ SearchFeedbackRequest.search_feedback r = None).
Proof.
  rewrite SearchFeedbackRequest_validate_cases.
  destruct (SearchFeedbackRequest.click r),
    (SearchFeedbackRequest.search_feedback r) as [f|];
    (split; split); settle_case.
Qed.

(** C5: whichever of the three root validators accepts a dictionary of
    field values, what it returns is that dictionary, with every field as
    supplied. *)
Theorem validators_return_values_unchanged
    (values values' : gmap string value)
    (Haccepted :
       ChatFeedbackRequest.check_is_positive_or_feedback_text values
         = Return values'
       \/ CreateChatMessageRequest.check_search_doc_ids_or_retrieval_options
            values = Return values'
       \/ SearchFeedbackRequest.check_click_or_search_feedback values
            = Return values') :
  values' = values.
Proof.
  unfold ChatFeedbackRequest.check_is_positive_or_feedback_text,
    CreateChatMessageRequest.check_search_doc_ids_or_retrieval_options,
    SearchFeedbackRequest.check_click_or_search_feedback in Haccepted.
  cbv zeta in Haccepted.
  destruct Haccepted as [H | [H | H]];
    match type of H with
    | (if ?c then _ else _) = _ => destruct c
    end; congruence.
Qed.

Lemma validators_return_values_unchanged_witness :
  ChatFeedbackRequest.check_is_positive_or_feedback_text
    (ChatFeedbackRequest.values sample_feedback)
    = Return (ChatFeedbackRequest.values sample_feedback)
  /\ ChatFeedbackRequest.values sample_feedback
     = ChatFeedbackRequest.values sample_feedback.
Proof.
  assert (Haccepted :
            ChatFeedbackRequest.check_is_positive_or_feedback_text
              (ChatFeedbackRequest.values sample_feedback)
            = Return (ChatFeedbackRequest.values sample_feedback))
    by reflexivity.
  split; [exact Haccepted |].
  apply (validators_return_values_unchanged
           (ChatFeedbackRequest.values sample_feedback)).
  left. exact Haccepted.
Defined.

(** C9: the validators test presence with [is None] and [is False], not
    truthiness. A chat feedback with [is_positive = False] and no text, a
    message creation with [search_doc_ids = []] and no retrieval options,
    and a search feedback with [click = False] and any feedback type are
    all accepted, although [False] and the empty list are falsy. *)
Theorem validators_test_presence_not_truthiness :
  (forall id predefined,
     let r := ChatFeedbackRequest.mk id (Some false) None predefined in
     dict_get (ChatFeedbackRequest.values r) "is_positive" = VBool false
     /\ ChatFeedbackRequest.validate r
        = Return (ChatFeedbackRequest.values r))
  /\ (forall inherited persona session parent msg files prompt query llm
             prompt_override assistant existing,
        let r := CreateChatMessageRequest.mk inherited persona session
                   parent msg files prompt (Some []) None query llm
                   prompt_override assistant existing in
        dict_get (CreateChatMessageRequest.values r) "search_doc_ids"
          = VList []
        /\ CreateChatMessageRequest.validate r
           = Return (CreateChatMessageRequest.values r))
  /\ (forall id doc rank feedback,
        let r := SearchFeedbackRequest.mk id doc rank false (Some feedback) in
        dict_get (SearchFeedbackRequest.values r) "click" = VBool false
        /\ SearchFeedbackRequest.validate r
           = Return (SearchFeedbackRequest.values r)).
Proof.
  split; [| split].
  - intros id predefined r. split; [reflexivity |].
    apply ChatFeedbackRequest_validate_cases.
  - intros inherited persona session parent msg files prompt query llm
      prompt_override assistant existing r.
    split.
    + apply CreateChatMessageRequest_get_search_doc_ids.
    + apply CreateChatMessageRequest_validate_cases.
  - intros id doc rank feedback r. split; [reflexivity |].
    apply SearchFeedbackRequest_validate_cases.
Qed.

(** ** Field defaults *)

(** C7 (counterexample): a tool configured without a display name does not
    get its name as display name. *)
Lemma tool_config_display_name_is_not_the_name :
  ToolConfig.display_name
    (ToolConfig.new "search" "Searches the connected sources"
       omitted omitted omitted)
  <> Some (ToolConfig.name
             (ToolConfig.new "search" "Searches the connected sources"
                omitted omitted omitted)).
Proof. discriminate. Qed.

(** C7 (as the code has it): a [ToolConfig] constructed without a
    [display_name] has a null [display_name], whatever its name and its
    other fields; the model does not fall back to the name. *)
Theorem tool_config_display_name_defaults_to_none
    (name description : string) (in_code_tool_id : kwarg (option Z))
    (openapi_schema : kwarg (option (list (string * value)))) :
  let tool :=
    ToolConfig.new name description in_code_tool_id omitted openapi_schema in
  ToolConfig.display_name tool = None
  /\ ToolConfig.name tool = name.
Proof. split; reflexivity. Qed.

(** C8: a [ChatSessionCreationRequest] constructed without a [persona_id]
    has [persona_id] 0, the default persona; a [persona_id] that is passed
    is kept. *)
Theorem chat_session_creation_default_persona
    (description : kwarg (option string)) :
  ChatSessionCreationRequest.persona_id
    (ChatSessionCreationRequest.new omitted description) = 0%Z
  /\ (forall persona : Z,
        ChatSessionCreationRequest.persona_id
          (ChatSessionCreationRequest.new (given persona) description)
        = persona).
Proof.
  split.
  - reflexivity.
  - intros persona. reflexivity.
Qed.

(** ** Serializing a chat message *)

Lemma BaseModel_dict_no_kwargs (attrs : gmap string value) :
  BaseModel.dict no_kwargs attrs = to_dict <$> attrs.
Proof.
  unfold BaseModel.dict. f_equal.
  apply map_filter_id. intros k v _. reflexivity.
Qed.

Lemma base_dict_no_kwargs_has_time_sent (self : ChatMessageDetail.t) :
  "time_sent" ∈ dom (ChatMessageDetail.base_dict no_kwargs self).
Proof.
  unfold ChatMessageDetail.base_dict.
  rewrite BaseModel_dict_no_kwargs, dom_fmap_L.
  apply elem_of_dom. eexists. reflexivity.
Qed.

(** C6: whatever the base serialization produces and whatever keyword
    arguments are passed, the dictionary made by [ChatMessageDetail.dict]
    carries [time_sent] as the string [time_sent.isoformat()], not as a
    datetime object. *)
Theorem dict_time_sent_is_isoformat_string
    (super_dict : dict_kwargs -> ChatMessageDetail.t -> gmap string value)
    (kwargs : dict_kwargs) (self : ChatMessageDetail.t) :
  ChatMessageDetail.dict super_dict kwargs self !! "time_sent"
    = Some (VStr (Isoformat.isoformat (ChatMessageDetail.time_sent self)))
  /\ (forall t : datetime,
        ChatMessageDetail.dict super_dict kwargs self !! "time_sent"
        <> Some (VDatetime t)).
Proof.
  unfold ChatMessageDetail.dict. cbv zeta.
  rewrite lookup_insert_eq. split; [reflexivity | discriminate].
Qed.

(** C10 (counterexample): when the caller excludes [time_sent], the base
    serialization has no such key and the override adds it, so the key set
    is not that of the base serialization. *)
Lemma dict_adds_excluded_time_sent :
  ("time_sent" ∉
     dom (ChatMessageDetail.base_dict exclude_time_sent sample_detail))
  /\ ("time_sent" ∈
       dom (ChatMessageDetail.dict ChatMessageDetail.base_dict
              exclude_time_sent sample_detail))
  /\ dom (ChatMessageDetail.dict ChatMessageDetail.base_dict
            exclude_time_sent sample_detail)
     <> dom (ChatMessageDetail.base_dict exclude_time_sent sample_detail).
Proof.
  assert (Hbase : ChatMessageDetail.base_dict exclude_time_sent sample_detail
                    !! "time_sent" = None) by (vm_compute; exact eq_refl).
  assert (Hout : "time_sent" ∉
            dom (ChatMessageDetail.base_dict exclude_time_sent sample_detail)).
  { rewrite elem_of_dom, Hbase. intros [v Hv]. discriminate. }
  assert (Hin : "time_sent" ∈
            dom (ChatMessageDetail.dict ChatMessageDetail.base_dict
                   exclude_time_sent sample_detail)).
  { unfold ChatMessageDetail.dict. cbv zeta.
    rewrite dom_insert_L. set_solver. }
  split; [exact Hout | split; [exact Hin |]].
  intros Heq. rewrite Heq in Hin. contradiction.
Qed.

(** C10 (as the code has it): the override changes the [time_sent] entry
    only. Every other key maps to what the base serialization gives it (or
    is absent like there), and the key set is that of the base
    serialization together with [time_sent]: no key is added or removed
    when the base serialization has [time_sent], as it has in a call
    without keyword arguments. *)
Theorem dict_changes_only_time_sent
    (super_dict : dict_kwargs -> ChatMessageDetail.t -> gmap string value)
    (kwargs : dict_kwargs) (self : ChatMessageDetail.t) :
  (forall key : string,
     key <> "time_sent" ->
     ChatMessageDetail.dict super_dict kwargs self !! key
     = super_dict kwargs self !! key)
  /\ dom (ChatMessageDetail.dict super_dict kwargs self)
     = {["time_sent"]} ∪ dom (super_dict kwargs self)
  /\ ("time_sent" ∈ dom (super_dict kwargs self) ->
      dom (ChatMessageDetail.dict super_dict kwargs self)
      = dom (super_dict kwargs self))
  /\ dom (ChatMessageDetail.dict ChatMessageDetail.base_dict no_kwargs self)
     = dom (ChatMessageDetail.base_dict no_kwargs self).
Proof.
  assert (Hdom : forall base : gmap string value,
            dom (<["time_sent" :=
                     VStr (Isoformat.isoformat (ChatMessageDetail.time_sent self))]>
                   base)
            = {["time_sent"]} ∪ dom base)
    by (intros base; apply dom_insert_L).
  unfold ChatMessageDetail.dict. cbv zeta.
  split; [| split; [| split]].
  - intros key Hkey. apply lookup_insert_ne. congruence.
  - apply Hdom.
  - intros Hin. rewrite Hdom.
    apply subseteq_union_1_L, singleton_subseteq_l, Hin.
  - rewrite Hdom.
    apply subseteq_union_1_L, singleton_subseteq_l,
      base_dict_no_kwargs_has_time_sent.
Qed.

(** ** The validators on an arbitrary dictionary *)

Lemma dict_get_None_iff (d : gmap string value) (key : string) :
  dict_get d key = VNone <-> null_or_missing d key.
Proof.
  unfold dict_get, null_or_missing.
  destruct (d !! key) as [v|]; simpl; split.
  - intros ->. right; reflexivity.
  - intros [H | H]; [discriminate | congruence].
  - intros _. left; reflexivity.
  - reflexivity.
Qed.

(** X1: on any dictionary of field values, the chat feedback validator
    raises [ValueError("Empty feedback received.")] exactly when each of
    [is_positive] and [feedback_text] is missing or [None], and returns the
    dictionary itself exactly otherwise; the empty dictionary is refused. *)
Theorem chat_feedback_validator_on_any_dict (values : gmap string value) :
  (ChatFeedbackRequest.check_is_positive_or_feedback_text values
     = Raise (ValueError "Empty feedback received.")
   <-> null_or_missing values "is_positive"
       /\ null_or_missing values "feedback_text")
  /\ (ChatFeedbackRequest.check_is_positive_or_feedback_text values
        = Return values
      <-> ~ (null_or_missing values "is_positive"
             /\ null_or_missing values "feedback_text"))
  /\ ChatFeedbackRequest.check_is_positive_or_feedback_text ∅
     = Raise (ValueError "Empty feedback received.").
Proof.
  pose proof (check_is_positive_or_feedback_text_raises values) as Hraises.
  rewrite !dict_get_None_iff in Hraises.
  split; [exact Hraises | split; [| reflexivity]].
  unfold ChatFeedbackRequest.check_is_positive_or_feedback_text in *.
  cbv zeta in *.
  destruct (is_None (dict_get values "is_positive")
            && is_None (dict_get values "feedback_text")); split.
  - discriminate.
  - intros Hnot. exfalso. apply Hnot, Hraises. reflexivity.
  - intros _ Hboth. apply Hraises in Hboth. discriminate.
  - reflexivity.
Qed.

(** X2: on any dictionary of field values, the message creation validator
    raises its [ValueError] exactly when each of [search_doc_ids] and
    [retrieval_options] is missing or [None], and returns the dictionary
    itself exactly otherwise. *)
Theorem create_chat_message_validator_on_any_dict
    (values : gmap string value) :
  (CreateChatMessageRequest.check_search_doc_ids_or_retrieval_options values
     = Raise (ValueError
         "Either search_doc_ids or retrieval_options must be provided, but not both or neither.")
   <-> null_or_missing values "search_doc_ids"
       /\ null_or_missing values "retrieval_options")
  /\ (CreateChatMessageRequest.check_search_doc_ids_or_retrieval_options
        values = Return values
      <-> ~ (null_or_missing values "search_doc_ids"
             /\ null_or_missing values "retrieval_options")).
Proof.
  rewrite <- !dict_get_None_iff, <- !is_None_spec.
  unfold CreateChatMessageRequest.check_search_doc_ids_or_retrieval_options.
  cbv zeta.
  destruct (is_None (dict_get values "search_doc_ids")),
    (is_None (dict_get values "retrieval_options")); simpl;
    (split; split); try discriminate; try reflexivity;
    try (intros [? ?]; discriminate);
    try (intros _ [? ?]; discriminate);
    try (intros _; split; reflexivity).
  intros Hnot. exfalso. apply Hnot. split; reflexivity.
Qed.

(** X3: on any dictionary of field values, the search feedback validator
    raises exactly when [click] is the boolean [False] and
    [search_feedback] is missing or [None], and returns the dictionary
    itself exactly otherwise. A dictionary with no [click] entry, or with
    an integer [0] for it, is never refused. *)
Theorem search_feedback_validator_on_any_dict (values : gmap string value) :
  (SearchFeedbackRequest.check_click_or_search_feedback values
     = Raise (ValueError "Empty feedback received.")
   <-> values !! "click" = Some (VBool false)
       /\ null_or_missing values "search_feedback")
  /\ (SearchFeedbackRequest.check_click_or_search_feedback values
        = Return values
      <-> ~ (values !! "click" = Some (VBool false)
             /\ null_or_missing values "search_feedback"))
  /\ SearchFeedbackRequest.check_click_or_search_feedback
       (delete "click" values)
     = Return (delete "click" values)
  /\ SearchFeedbackRequest.check_click_or_search_feedback
       (<["click" := VInt 0]> values)
     = Return (<["click" := VInt 0]> values).
Proof.
  assert (Hclick : dict_get values "click" = VBool false
                   <-> values !! "click" = Some (VBool false)).
  { unfold dict_get. destruct (values !! "click"); simpl; split;
      congruence. }
  rewrite <- Hclick, <- !dict_get_None_iff, <- is_None_spec, <- is_False_spec.
  unfold SearchFeedbackRequest.check_click_or_search_feedback.
  cbv zeta.
  split; [| split; [| split]].
  - destruct (is_False (dict_get values "click")),
      (is_None (dict_get values "search_feedback")); simpl;
      split; settle_case.
  - destruct (is_False (dict_get values "click")),
      (is_None (dict_get values "search_feedback")); simpl;
      split; try discriminate; try reflexivity;
      try (intros _ [? ?]; discriminate).
    intros Hnot. exfalso. apply Hnot. split; reflexivity.
  - unfold dict_get at 1. rewrite lookup_delete_eq. reflexivity.
  - unfold dict_get at 1. rewrite lookup_insert_eq. reflexivity.
Qed.

(** X4: no validator looks at a field other than the two it names. Setting
    any other entry of the dictionary, to any value, leaves the verdict of
    the validator as it was. *)
Theorem validators_ignore_other_fields
    (values : gmap string value) (key : string) (x : value) :
  (key <> "is_positive" -> key <> "feedback_text" ->
   accepts ChatFeedbackRequest.check_is_positive_or_feedback_text
     (<[key := x]> values)
   = accepts ChatFeedbackRequest.check_is_positive_or_feedback_text values)
  /\ (key <> "search_doc_ids" -> key <> "retrieval_options" ->
      accepts CreateChatMessageRequest.check_search_doc_ids_or_retrieval_options
        (<[key := x]> values)
      = accepts
          CreateChatMessageRequest.check_search_doc_ids_or_retrieval_options
          values)
  /\ (key <> "click" -> key <> "search_feedback" ->
      accepts SearchFeedbackRequest.check_click_or_search_feedback
        (<[key := x]> values)
      = accepts SearchFeedbackRequest.check_click_or_search_feedback values).
Proof.
  unfold accepts, ChatFeedbackRequest.check_is_positive_or_feedback_text,
    CreateChatMessageRequest.check_search_doc_ids_or_retrieval_options,
    SearchFeedbackRequest.check_click_or_search_feedback, dict_get.
  cbv zeta.
  split; [| split]; intros Hfirst Hsecond;
    rewrite !lookup_insert_ne by congruence;
    destruct (_ && _); reflexivity.
Qed.

Lemma validators_ignore_other_fields_witness :
  accepts ChatFeedbackRequest.check_is_positive_or_feedback_text
    (<["predefined_feedback" := VStr "Did not answer the question"]>
       (ChatFeedbackRequest.values sample_feedback))
  = accepts ChatFeedbackRequest.check_is_positive_or_feedback_text
      (ChatFeedbackRequest.values sample_feedback).
Proof.
  apply (proj1 (validators_ignore_other_fields
                  (ChatFeedbackRequest.values sample_feedback)
                  "predefined_feedback"
                  (VStr "Did not answer the question")));
    discriminate.
Defined.

(** ** Constructing requests: defaults meet the validators *)

(** X5: a [ChatFeedbackRequest] built from its message id alone, or with a
    predefined feedback only, is refused; passing [None] for [is_positive]
    or [feedback_text] is the same as leaving it out; and with either one
    passed non-null the request is built and carries what was passed. *)
Theorem chat_feedback_new_needs_thumb_or_text (id : Z) :
  (forall predefined,
     ChatFeedbackRequest_new id omitted omitted predefined
     = Raise (empty_feedback "ChatFeedbackRequest"))
  /\ (forall thumb text predefined,
        ChatFeedbackRequest_new id (given None) text predefined
        = ChatFeedbackRequest_new id omitted text predefined
        /\ ChatFeedbackRequest_new id thumb (given None) predefined
           = ChatFeedbackRequest_new id thumb omitted predefined)
  /\ (forall b text predefined,
        exists attrs,
          ChatFeedbackRequest_new id (given (Some b)) text predefined
          = Return attrs
          /\ attrs !! "chat_message_id" = Some (VInt id)
          /\ attrs !! "is_positive" = Some (VBool b))
  /\ (forall thumb s predefined,
        exists attrs,
          ChatFeedbackRequest_new id thumb (given (Some s)) predefined
          = Return attrs
          /\ attrs !! "chat_message_id" = Some (VInt id)
          /\ attrs !! "feedback_text" = Some (VStr s)).
Proof.
  unfold ChatFeedbackRequest_new.
  split; [| split; [| split]].
  - intros predefined. apply ChatFeedbackRequest_validate_cases.
  - intros thumb text predefined. split; reflexivity.
  - intros b text predefined. eexists. split.
    + rewrite ChatFeedbackRequest_validate_cases. reflexivity.
    + split; reflexivity.
  - intros thumb s predefined.
    exists (ChatFeedbackRequest.values
              (ChatFeedbackRequest.mk id (optional_field thumb) (Some s)
                 (optional_field predefined))).
    split.
    + rewrite ChatFeedbackRequest_validate_cases. simpl.
      destruct (optional_field thumb); reflexivity.
    + split; reflexivity.
Qed.

(** X6: a [SearchFeedbackRequest] built without a [search_feedback] is
    refused when [click] is false and built when [click] is true, its
    [search_feedback] then being [None]; passing [None] is the same as
    leaving the field out. *)
Theorem search_feedback_new_without_feedback
    (id : Z) (doc : string) (rank : Z) :
  SearchFeedbackRequest_new id doc rank false omitted
    = Raise (empty_feedback "SearchFeedbackRequest")
  /\ (exists attrs,
        SearchFeedbackRequest_new id doc rank true omitted = Return attrs
        /\ attrs !! "click" = Some (VBool true)
        /\ attrs !! "search_feedback" = Some VNone
        /\ attrs !! "document_id" = Some (VStr doc))
  /\ (forall click,
        SearchFeedbackRequest_new id doc rank click (given None)
        = SearchFeedbackRequest_new id doc rank click omitted).
Proof.
  unfold SearchFeedbackRequest_new.
  split; [| split].
  - apply SearchFeedbackRequest_validate_cases.
  - eexists. split.
    + rewrite SearchFeedbackRequest_validate_cases. reflexivity.
    + repeat split.
  - intros click. reflexivity.
Qed.

Section create_chat_message_kwargs.
Variable inherited : gmap string value.
Variables (persona : kwarg (option instance)) (session : Z)
  (parent : kwarg (option Z)) (msg : string) (files : list instance)
  (prompt : kwarg (option Z)) (query : kwarg (option string))
  (llm prompt_override : kwarg (option instance))
  (assistant : kwarg (option Z)).

(** X7: [search_doc_ids] and [retrieval_options] may both be left out of
    the call to [CreateChatMessageRequest], yet the request is then
    refused, whatever else is passed; passing [None] is the same as leaving
    out; with a list of document ids the request is built, carries the
    list, and has [use_existing_user_message] false unless it was passed. *)
Theorem create_chat_message_new_needs_one_source :
  (forall existing,
     CreateChatMessageRequest_new inherited persona session parent msg files
       prompt omitted omitted query llm prompt_override assistant existing
     = Raise neither_provided)
  /\ (forall docs options existing,
        CreateChatMessageRequest_new inherited persona session parent msg
          files prompt (given None) options query llm prompt_override
          assistant existing
        = CreateChatMessageRequest_new inherited persona session parent msg
            files prompt omitted options query llm prompt_override
            assistant existing
        /\ CreateChatMessageRequest_new inherited persona session parent msg
             files prompt docs (given None) query llm prompt_override
             assistant existing
           = CreateChatMessageRequest_new inherited persona session parent
               msg files prompt docs omitted query llm prompt_override
               assistant existing)
  /\ (forall ids options,
        exists attrs,
          CreateChatMessageRequest_new inherited persona session parent msg
            files prompt (given (Some ids)) options query llm
            prompt_override assistant omitted
          = Return attrs
          /\ attrs !! "search_doc_ids" = Some (VList (VInt <$> ids))
          /\ attrs !! "message" = Some (VStr msg)
          /\ attrs !! "use_existing_user_message" = Some (VBool false)).
Proof.
  unfold CreateChatMessageRequest_new.
  split; [| split].
  - intros existing. apply CreateChatMessageRequest_validate_cases.
  - intros docs options existing. split; reflexivity.
  - intros ids options. eexists. split.
    + rewrite CreateChatMessageRequest_validate_cases. reflexivity.
    + unfold CreateChatMessageRequest.values.
      split; [| split]; apply lookup_union_Some_l; reflexivity.
Qed.
End create_chat_message_kwargs.

(** ** Serialization and the keyword arguments *)

Lemma BaseModel_dict_lookup (kwargs : dict_kwargs)
    (attrs : gmap string value) (key : string) :
  BaseModel.dict kwargs attrs !! key
  = match attrs !! key with
    | Some v =>
        if BaseModel.exported kwargs key v then Some (to_dict v) else None
    | None => None
    end.
Proof.
  unfold BaseModel.dict.
  rewrite lookup_fmap, map_lookup_filter.
  destruct (attrs !! key) as [v|]; simpl; [| reflexivity].
  destruct (BaseModel.exported kwargs key v); reflexivity.
Qed.

Lemma base_dict_time_sent (kwargs : dict_kwargs) (self : ChatMessageDetail.t) :
  ChatMessageDetail.base_dict kwargs self !! "time_sent"
  = if BaseModel.exported kwargs "time_sent"
         (VDatetime (ChatMessageDetail.time_sent self))
    then Some (VDatetime (ChatMessageDetail.time_sent self))
    else None.
Proof.
  unfold ChatMessageDetail.base_dict.
  rewrite BaseModel_dict_lookup. reflexivity.
Qed.

Lemma exported_time_sent_false_iff (kwargs : dict_kwargs) (t : datetime) :
  BaseModel.exported kwargs "time_sent" (VDatetime t) = false
  <-> (exists keys, include kwargs = Some keys /\ "time_sent" ∉ keys)
      \/ (exists keys, exclude kwargs = Some keys /\ "time_sent" ∈ keys).
Proof.
  unfold BaseModel.exported.
  rewrite andb_false_r, andb_true_r.
  destruct (include kwargs) as [inc|], (exclude kwargs) as [exc|];
    repeat case_bool_decide; cbn [andb negb]; split;
    try discriminate;
    try (intros _; left; eexists; split; [reflexivity | assumption]);
    try (intros _; right; eexists; split; [reflexivity | assumption]);
    try reflexivity;
    intros [[keys [Heq Hin]] | [keys [Heq Hin]]];
    try discriminate Heq;
    injection Heq as <-; exfalso; auto.
Qed.

(** X8: with pydantic's serialization as the base, [ChatMessageDetail.dict]
    yields the keys of the base serialization exactly when the keyword
    arguments select [time_sent]; when they filter it out ([include]
    without it, or [exclude] with it) the result has one key more than the
    base serialization, [time_sent] itself. *)
Theorem dict_adds_time_sent_iff_filtered_out
    (kwargs : dict_kwargs) (self : ChatMessageDetail.t) :
  let selected :=
    BaseModel.exported kwargs "time_sent"
      (VDatetime (ChatMessageDetail.time_sent self)) in
  let result :=
    ChatMessageDetail.dict ChatMessageDetail.base_dict kwargs self in
  let base := ChatMessageDetail.base_dict kwargs self in
  (selected = false
   <-> (exists keys, include kwargs = Some keys /\ "time_sent" ∉ keys)
       \/ (exists keys, exclude kwargs = Some keys /\ "time_sent" ∈ keys))
  /\ (selected = true <-> dom result = dom base)
  /\ size result = (if selected then size base else S (size base))
  /\ dom result = {["time_sent"]} ∪ dom base.
Proof.
  cbv zeta.
  pose proof (base_dict_time_sent kwargs self) as Hbase.
  pose proof (exported_time_sent_false_iff kwargs
                (ChatMessageDetail.time_sent self)) as Hfiltered.
  unfold ChatMessageDetail.dict. cbv zeta.
  set (iso := VStr (Isoformat.isoformat (ChatMessageDetail.time_sent self))).
  clearbody iso.
  revert Hbase.
  generalize (ChatMessageDetail.base_dict kwargs self). intros base Hbase.
  rewrite dom_insert_L.
  destruct (BaseModel.exported kwargs "time_sent"
              (VDatetime (ChatMessageDetail.time_sent self))).
  - assert (Hin : "time_sent" ∈ dom base)
      by (apply elem_of_dom; rewrite Hbase; eexists; reflexivity).
    split; [exact Hfiltered | split; [| split]].
    + split; [intros _ | intros _; reflexivity].
      apply subseteq_union_1_L, singleton_subseteq_l, Hin.
    + apply map_size_insert_Some. rewrite Hbase. eexists; reflexivity.
    + reflexivity.
  - assert (Hout : "time_sent" ∉ dom base)
      by (rewrite not_elem_of_dom; exact Hbase).
    split; [exact Hfiltered | split; [| split]].
    + split; [discriminate | intros Heq].
      exfalso. apply Hout. rewrite <- Heq.
      apply elem_of_union_l, elem_of_singleton. reflexivity.
    + apply map_size_insert_None. exact Hbase.
    + reflexivity.
Qed.

(** ** The session detail response *)





(** ** Supplying more fields *)

Lemma is_None_false (x : value) : x <> VNone -> is_None x = false.
Proof. destruct x; simpl; congruence. Qed.

(** X10: for the chat feedback and the message creation validators,
    setting any entry of the dictionary to a value other than [None] never
    turns an accepted dictionary into a refused one, and setting one of the
    two entries the validator reads makes any dictionary accepted. The
    search feedback validator is different: setting [click] to [False] in
    the accepted empty dictionary makes it refused. *)
Theorem non_null_fields_never_invalidate
    (values : gmap string value) (key : string) (x : value)
    (Hx : x <> VNone) :
  (accepts ChatFeedbackRequest.check_is_positive_or_feedback_text values
     = true ->
   accepts ChatFeedbackRequest.check_is_positive_or_feedback_text
     (<[key := x]> values) = true)
  /\ (accepts
        CreateChatMessageRequest.check_search_doc_ids_or_retrieval_options
        values = true ->
      accepts
        CreateChatMessageRequest.check_search_doc_ids_or_retrieval_options
        (<[key := x]> values) = true)
  /\ (key = "is_positive" \/ key = "feedback_text" ->
      accepts ChatFeedbackRequest.check_is_positive_or_feedback_text
        (<[key := x]> values) = true)
  /\ (key = "search_doc_ids" \/ key = "retrieval_options" ->
      accepts
        CreateChatMessageRequest.check_search_doc_ids_or_retrieval_options
        (<[key := x]> values) = true)
  /\ (accepts SearchFeedbackRequest.check_click_or_search_feedback ∅ = true
      /\ accepts SearchFeedbackRequest.check_click_or_search_feedback
           (<["click" := VBool false]> ∅) = false).
Proof.
  pose proof (is_None_false x Hx) as Hnn.
  unfold accepts, ChatFeedbackRequest.check_is_positive_or_feedback_text,
    CreateChatMessageRequest.check_search_doc_ids_or_retrieval_options,
    dict_get.
  cbv zeta.
  assert (Hread : forall k1 k2 : string,
            (key = k1 \/ key = k2) ->
            is_None (default VNone (<[key := x]> values !! k1))
            && is_None (default VNone (<[key := x]> values !! k2)) = false).
  { intros k1 k2 [-> | ->].
    - rewrite lookup_insert_eq. simpl. rewrite Hnn. reflexivity.
    - rewrite (lookup_insert_eq values k2). simpl. rewrite Hnn.
      apply andb_false_r. }
  assert (Hkeep : forall k1 k2 : string,
            is_None (default VNone (values !! k1))
            && is_None (default VNone (values !! k2)) = false ->
            is_None (default VNone (<[key := x]> values !! k1))
            && is_None (default VNone (<[key := x]> values !! k2)) = false).
  { intros k1 k2 Hbefore.
    destruct (decide (key = k1)) as [Hk1 | Hk1];
      [apply Hread; left; exact Hk1 |].
    destruct (decide (key = k2)) as [Hk2 | Hk2];
      [apply Hread; right; exact Hk2 |].
    rewrite !lookup_insert_ne by assumption. exact Hbefore. }
  split; [| split; [| split; [| split]]].
  - intros Hbefore. rewrite Hkeep; [reflexivity |].
    destruct (_ && _); [discriminate | reflexivity].
  - intros Hbefore. rewrite Hkeep; [reflexivity |].
    destruct (_ && _); [discriminate | reflexivity].
  - intros Hkey. rewrite Hread by exact Hkey. reflexivity.
  - intros Hkey. rewrite Hread by exact Hkey. reflexivity.
  - split; reflexivity.
Qed.

Lemma non_null_fields_never_invalidate_witness :
  VStr "Helpful answer" <> VNone
  /\ accepts ChatFeedbackRequest.check_is_positive_or_feedback_text
       (<["feedback_text" := VStr "Helpful answer"]>
          (ChatFeedbackRequest.values sample_feedback)) = true.
Proof.
  assert (Hx : VStr "Helpful answer" <> VNone) by discriminate.
  split; [exact Hx |].
  apply (proj1 (non_null_fields_never_invalidate
                  (ChatFeedbackRequest.values sample_feedback)
                  "feedback_text" (VStr "Helpful answer") Hx)).
  reflexivity.
Defined.
